(** * The health-check route of [backend/app/routers/health.py]

    The module builds one [APIRouter] with prefix ["/health"], registers
    the coroutine [health] on it for the methods GET and HEAD at the empty
    sub-path, and [health] returns [HealthResponse()].

    The embedding has three layers:
    - model construction ([BaseModel_init]), as the model library performs
      it for a class whose fields carry plain declared defaults;
    - the routing of the web framework the module is written against
      (route registration, route matching, the router's dispatch loop with
      its slash redirection, the 405 and 404 answers);
    - the module itself: [router], [health].

    Handlers run in a state monad over the process state [World], so that
    what a call reads and what it leaves behind can be stated. *)

From Stdlib Require Import String Ascii List Bool Permutation.
Import ListNotations.
Local Open Scope string_scope.
Local Open Scope list_scope.

Set Implicit Arguments.

(** ** Outcomes and the handler monad *)

(** The exceptions the modelled code can raise: a model constructed
    without a value for a field that declares no default. *)
Inductive Exception : Type :=
| ValidationError (missing : list string).

(** A Python call either returns a value or raises. *)
Inductive Outcome (A : Type) : Type :=
| Returned (a : A)
| Raised (e : Exception).

Arguments Returned {A} a.
Arguments Raised {A} e.

Section Model.

(** Values held by model fields. *)
Variable Value : Type.

(** Everything a handler could touch besides its own result: the log
    records emitted so far, the module-level variables, and the trace of
    I/O operations performed. *)
Record World : Type := {
  log : list string;
  globals : list (string * Value);
  io : list string
}.

(** A computation that may read and update the process state. *)
Definition M (A : Type) : Type := World -> A * World.

Definition ret {A} (a : A) : M A := fun w => (a, w).

Definition bind {A B} (c : M A) (k : A -> M B) : M B :=
  fun w => let (a, w') := c w in k a w'.

Notation "x <- c ;; k" := (bind c (fun x => k))
  (at level 61, c at next level, right associativity).

(** Runs [f] over [xs] from left to right, threading the state. *)
Fixpoint mapM {A B} (f : A -> M B) (xs : list A) : M (list B) :=
  match xs with
  | [] => ret []
  | x :: xs' =>
      y <- f x ;;
      ys <- mapM f xs' ;;
      ret (y :: ys)
  end.

(** ** Model classes *)

(** A declared field: [field_default = None] is a required field. *)
Record FieldInfo : Type := {
  field_name : string;
  field_default : option Value
}.

(** A model class is its fields in declaration order. *)
Definition ModelClass : Type := list FieldInfo.

(** A model instance: field name and value, in declaration order. *)
Definition Instance : Type := list (string * Value).

Fixpoint lookup (k : string) (data : list (string * Value)) : option Value :=
  match data with
  | [] => None
  | (k', v) :: rest => if String.eqb k k' then Some v else lookup k rest
  end.

(** The value a field gets: the keyword argument when one is passed,
    otherwise the declared default. *)
Definition field_value (f : FieldInfo) (data : list (string * Value))
  : option Value :=
  match lookup (field_name f) data with
  | Some v => Some v
  | None => field_default f
  end.

(** One pass over the fields, collecting the values and the names of the
    fields left without one. *)
Fixpoint collect (cls : ModelClass) (data : list (string * Value))
  : Instance * list string :=
  match cls with
  | [] => ([], [])
  | f :: fs =>
      let (vs, errs) := collect fs data in
      match field_value f data with
      | Some v => ((field_name f, v) :: vs, errs)
      | None => (vs, field_name f :: errs)
      end
  end.

(** Calling the class with keyword arguments [data]: raises when some
    field is left without a value. *)
Definition BaseModel_init (cls : ModelClass) (data : list (string * Value))
  : Outcome Instance :=
  match collect cls data with
  | (vs, []) => Returned vs
  | (_, errs) => Raised (ValidationError errs)
  end.

Definition has_default (f : FieldInfo) : bool :=
  match field_default f with
  | Some _ => true
  | None => false
  end.

(** Modelled from the spec: the class [HealthResponse] of
    [models/domain.py] is not among the sources.  The spec's data model
    says the record is "always constructible with default values" and has
    "a fixed set of default fields": every declared field carries a
    default. *)
Definition constructible_with_defaults (cls : ModelClass) : bool :=
  forallb has_default cls.

(** The instance that maps each field with a default to that default. *)
Fixpoint default_instance (cls : ModelClass) : Instance :=
  match cls with
  | [] => []
  | f :: fs =>
      match field_default f with
      | Some v => (field_name f, v) :: default_instance fs
      | None => default_instance fs
      end
  end.

(** ** Requests and responses *)

Record Request : Type := {
  method : string;
  path : string;
  query_string : string;
  headers : list (string * string);
  body : string
}.

(** A response: the status code, the object handed over as the JSON
    content (if any), and the path of the [Location] header (if any). *)
Record Response : Type := {
  status_code : nat;
  content : option Instance;
  location : option string
}.

Definition json_response (status : nat) (obj : Instance) : Response :=
  {| status_code := status; content := Some obj; location := None |}.

Definition plain_response (status : nat) : Response :=
  {| status_code := status; content := None; location := None |}.

(** [RedirectResponse(url)]: status 307 unless stated otherwise. *)
Definition redirect_response (target : string) : Response :=
  {| status_code := 307; content := None; location := Some target |}.

(** ** Routes and routers *)

Record APIRoute : Type := {
  route_path : string;
  route_methods : list string;
  route_name : string;
  endpoint : M (Outcome Instance);
  response_model : ModelClass;
  route_status_code : option nat
}.

Record APIRouter : Type := {
  prefix : string;
  tags : list string;
  redirect_slashes : bool;
  routes : list APIRoute
}.

(** [APIRouter(prefix=..., tags=...)]: the other settings keep their
    defaults, among them [redirect_slashes=True]. *)
Definition APIRouter_init (prefix : string) (tags : list string) : APIRouter :=
  {| prefix := prefix; tags := tags; redirect_slashes := true; routes := [] |}.

(** [@self.api_route(path, methods=..., response_model=...)] applied to
    [func]: the route is appended under the router's prefix followed by
    [path]; no [status_code] is passed. *)
Definition api_route (self : APIRouter) (path : string)
    (methods : list string) (response_model : ModelClass)
    (name : string) (func : M (Outcome Instance)) : APIRouter :=
  {| prefix := prefix self;
     tags := tags self;
     redirect_slashes := redirect_slashes self;
     routes := routes self ++
       [ {| route_path := prefix self ++ path;
            route_methods := methods;
            route_name := name;
            endpoint := func;
            response_model := response_model;
            route_status_code := None |} ] |}.

(** The same router served with another slash-redirection setting. *)
Definition with_redirect_slashes (b : bool) (self : APIRouter) : APIRouter :=
  {| prefix := prefix self;
     tags := tags self;
     redirect_slashes := b;
     routes := routes self |}.

(** ** Matching *)

Inductive Match : Type := NONE | PARTIAL | FULL.

Definition newline : string := String (ascii_of_nat 10) EmptyString.

(** A path template without parameters compiles to the regular expression
    [^template$], tried with [match]; [$] also matches just before a final
    newline. *)
Definition path_regex_match (template p : string) : bool :=
  String.eqb p template || String.eqb p (template ++ newline).

Definition method_in (m : string) (methods : list string) : bool :=
  existsb (String.eqb m) methods.

Definition is_empty {A} (l : list A) : bool :=
  match l with
  | [] => true
  | _ => false
  end.

(** [route.matches(scope)] *)
Definition matches (r : APIRoute) (req : Request) : Match :=
  if path_regex_match (route_path r) (path req) then
    if negb (is_empty (route_methods r))
       && negb (method_in (method req) (route_methods r))
    then PARTIAL
    else FULL
  else NONE.

(** ** Dispatch *)

(** The first loop of the router: the first fully matching route wins; the
    first partially matching one is remembered. *)
Fixpoint scan (rs : list APIRoute) (req : Request) (partial : option APIRoute)
  : option APIRoute * option APIRoute :=
  match rs with
  | [] => (None, partial)
  | r :: rs' =>
      match matches r req with
      | FULL => (Some r, partial)
      | PARTIAL =>
          scan rs' req (match partial with
                        | None => Some r
                        | Some _ => partial
                        end)
      | NONE => scan rs' req partial
      end
  end.

Definition slash : ascii := "/"%char.

(** [s.endswith("/")] *)
Fixpoint endswith_slash (s : string) : bool :=
  match s with
  | EmptyString => false
  | String c EmptyString => Ascii.eqb c slash
  | String _ s' => endswith_slash s'
  end.

(** [s.rstrip("/")] *)
Fixpoint rstrip_slash (s : string) : string :=
  match s with
  | EmptyString => EmptyString
  | String c s' =>
      match rstrip_slash s' with
      | EmptyString => if Ascii.eqb c slash then EmptyString
                       else String c EmptyString
      | t => String c t
      end
  end.

Definition with_path (req : Request) (p : string) : Request :=
  {| method := method req;
     path := p;
     query_string := query_string req;
     headers := headers req;
     body := body req |}.

(** The path the router tries when nothing matched: without its trailing
    slashes, or with one added. *)
Definition redirect_path (p : string) : string :=
  if endswith_slash p then rstrip_slash p else p ++ "/".

Definition is_NONE (m : Match) : bool :=
  match m with
  | NONE => true
  | _ => false
  end.

(** What the router decides to do with a request. *)
Inductive Resolution : Type :=
| CallEndpoint (r : APIRoute)
| MethodNotAllowed (r : APIRoute)
| SlashRedirect (target : string)
| NotFound.

(** [route.handle]: a route reached with a method it does not serve
    answers 405 without calling its endpoint. *)
Definition handle (r : APIRoute) (req : Request) : Resolution :=
  if negb (is_empty (route_methods r))
     && negb (method_in (method req) (route_methods r))
  then MethodNotAllowed r
  else CallEndpoint r.

(** The router as an application: full match, else partial match, else
    the slash redirection, else the default 404. *)
Definition resolve (self : APIRouter) (req : Request) : Resolution :=
  match scan (routes self) req None with
  | (Some r, _) => handle r req
  | (None, Some r) => handle r req
  | (None, None) =>
      if redirect_slashes self && negb (String.eqb (path req) "/") then
        let req' := with_path req (redirect_path (path req)) in
        if existsb (fun r => negb (is_NONE (matches r req'))) (routes self)
        then SlashRedirect (path req')
        else NotFound
      else NotFound
  end.

(** The request handler built for a route: the endpoint here declares no
    parameter, so nothing of the request is passed to it; its result
    becomes the JSON content under the route's status code (200 when none
    is declared); an exception escaping it becomes a 500. *)
Definition run_endpoint (r : APIRoute) : M Response :=
  out <- endpoint r ;;
  ret (match out with
       | Returned obj =>
           json_response (match route_status_code r with
                          | Some c => c
                          | None => 200
                          end) obj
       | Raised _ => plain_response 500
       end).

Definition respond (res : Resolution) : M Response :=
  match res with
  | CallEndpoint r => run_endpoint r
  | MethodNotAllowed _ => ret (plain_response 405)
  | SlashRedirect target => ret (redirect_response target)
  | NotFound => ret (plain_response 404)
  end.

Definition app (self : APIRouter) (req : Request) : M Response :=
  respond (resolve self req).

(** ** The module *)

Section Health.

(** The class [HealthResponse] imported from [..models.domain]. *)
Variable HealthResponse : ModelClass.

(** [async def health() -> HealthResponse: return HealthResponse()] *)
Definition health : M (Outcome Instance) :=
  ret (BaseModel_init HealthResponse []).

(** [router = APIRouter(prefix="/health", tags=["health"])] followed by
    the decorated definition of [health]. *)
Definition router : APIRouter :=
  api_route (APIRouter_init "/health" ["health"])
    "" ["GET"; "HEAD"] HealthResponse "health" health.

(** The route the decorator leaves on [router]. *)
Definition health_route : APIRoute :=
  {| route_path := "/health";
     route_methods := ["GET"; "HEAD"];
     route_name := "health";
     endpoint := health;
     response_model := HealthResponse;
     route_status_code := None |}.

(** The answer to a successful health check. *)
Definition ok_response : Response :=
  json_response 200 (default_instance HealthResponse).

End Health.

(** ** Vocabulary of the properties *)

Definition supported_method (m : string) : Prop :=
  m = "GET" \/ m = "HEAD".

(** A request with a supported method to the exact path. *)
Definition health_request (req : Request) : Prop :=
  path req = "/health" /\ supported_method (method req).

Fixpoint all_slashes (s : string) : bool :=
  match s with
  | EmptyString => true
  | String c s' => Ascii.eqb c slash && all_slashes s'
  end.

(** Requests served one after the other. *)
Definition serve_all (self : APIRouter) (reqs : list Request)
  : M (list Response) :=
  mapM (app self) reqs.

(** ** Invocations in flight

    The body of [health] has no suspension point, so on the event loop a
    started invocation runs to its end before another one runs: requests
    in flight are served in an order the scheduler picks.  A pool holds
    the shared process state, the numbered invocations not yet run and the
    answers given so far. *)
Record Pool : Type := {
  shared : World;
  pending : list (nat * Request);
  completed : list (nat * Response)
}.

(** The scheduler runs any one of the pending invocations; no step waits
    for a lock. *)
Inductive step (self : APIRouter) : Pool -> Pool -> Prop :=
| step_run : forall w before i req after done,
    step self
      {| shared := w;
         pending := before ++ (i, req) :: after;
         completed := done |}
      {| shared := snd (app self req w);
         pending := before ++ after;
         completed := (i, fst (app self req w)) :: done |}.

Inductive steps (self : APIRouter) : Pool -> Pool -> Prop :=
| steps_refl : forall p, steps self p p
| steps_snoc : forall p q r, steps self p q -> step self q r -> steps self p r.

End Model.

Arguments NotFound {Value}.
Arguments APIRouter_init {Value} prefix tags.
Arguments plain_response {Value} status.
Arguments redirect_response {Value} target.
Arguments SlashRedirect {Value} target.

(** ** Sample data *)

(** A health model with the single field [status = "ok"]. *)
Definition status_ok : ModelClass string :=
  [ {| field_name := "status"; field_default := Some "ok" |} ].

(** A model with a required field, which no call without arguments can
    construct. *)
Definition status_required : ModelClass string :=
  [ {| field_name := "status"; field_default := None |} ].

Definition idle : World string :=
  {| log := []; globals := []; io := [] |}.

Definition busy : World string :=
  {| log := ["started"]; globals := [("hits", "3")]; io := ["connect"] |}.

Definition request (m p : string) : Request :=
  {| method := m; path := p; query_string := ""; headers := []; body := "" |}.

Definition probe : Request :=
  {| method := "HEAD";
     path := "/health";
     query_string := "verbose=1";
     headers := [("user-agent", "kube-probe")];
     body := "ignored" |}.

(** Two invocations in flight, and the pool after the scheduler ran the
    second one first. *)
Definition two_probes : list (nat * Request) :=
  [(0, request "GET" "/health"); (1, probe)].

Definition both_answered : Pool string :=
  {| shared := busy;
     pending := [];
     completed := [(0, ok_response status_ok); (1, ok_response status_ok)] |}.

(** * Properties *)

Section Properties.

Variable Value : Type.

(** The class [HealthResponse], whatever its declaration is. *)
Variable HealthResponse : ModelClass Value.

(** ** Model construction *)

Lemma collect_no_arguments (cls : ModelClass Value) :
  constructible_with_defaults cls = true ->
  collect cls [] = (default_instance cls, []).
Proof.
  unfold constructible_with_defaults.
  induction cls as [| f fs IH]; simpl; intros H; [reflexivity|].
  apply andb_true_iff in H as [Hf Hfs].
  rewrite (IH Hfs). unfold field_value, has_default in *. simpl.
  destruct (field_default f); [reflexivity | discriminate].
Qed.

Lemma collect_missing (cls : ModelClass Value) :
  constructible_with_defaults cls = false ->
  snd (collect cls []) <> [].
Proof.
  unfold constructible_with_defaults.
  induction cls as [| f fs IH]; simpl; intros H; [discriminate|].
  destruct (collect fs []) as [vs errs] eqn:E.
  unfold field_value, has_default in *. simpl in *.
  destruct (field_default f); simpl in *; [auto | discriminate].
Qed.

Lemma BaseModel_init_defaults (cls : ModelClass Value) :
  constructible_with_defaults cls = true ->
  BaseModel_init cls [] = Returned (default_instance cls).
Proof.
  intros H. unfold BaseModel_init. now rewrite (collect_no_arguments cls H).
Qed.

(** Construction without arguments succeeds exactly for the classes whose
    fields all declare a default. *)
Lemma BaseModel_init_returns_iff (cls : ModelClass Value) :
  (exists obj, BaseModel_init cls [] = Returned obj) <->
  constructible_with_defaults cls = true.
Proof.
  split.
  - intros [obj H]. destruct (constructible_with_defaults cls) eqn:E; [reflexivity|].
    apply collect_missing in E. unfold BaseModel_init in H.
    destruct (collect cls []) as [vs [| e errs]]; simpl in *;
      [congruence | discriminate].
  - intros H. eexists. now apply BaseModel_init_defaults.
Qed.

(** ** Routing of the health router *)

Lemma api_route_appends (self : APIRouter Value) sub methods model name func :
  exists r,
    routes (api_route self sub methods model name func) = routes self ++ [r] /\
    route_path r = (prefix self ++ sub)%string /\
    route_methods r = methods /\
    endpoint r = func.
Proof. eexists; repeat split. Qed.

Lemma method_in_supported (m : string) :
  method_in m ["GET"; "HEAD"] = true <-> supported_method m.
Proof.
  unfold method_in, supported_method; simpl.
  rewrite !orb_true_iff, !String.eqb_eq. intuition discriminate.
Qed.

Lemma method_in_unsupported (m : string) :
  ~ supported_method m -> method_in m ["GET"; "HEAD"] = false.
Proof.
  intros H. destruct (method_in m ["GET"; "HEAD"]) eqn:E; [|reflexivity].
  apply method_in_supported in E. contradiction.
Qed.

Lemma matches_health_route (req : Request) :
  matches (health_route HealthResponse) req =
  if path_regex_match "/health" (path req)
  then if method_in (method req) ["GET"; "HEAD"] then FULL else PARTIAL
  else NONE.
Proof.
  unfold matches; simpl route_path; simpl route_methods; simpl is_empty.
  destruct (path_regex_match _ _); [|reflexivity].
  now destruct (method_in _ _).
Qed.

Lemma resolve_health_request (req : Request) :
  health_request req ->
  resolve (router HealthResponse) req = CallEndpoint (health_route HealthResponse).
Proof.
  intros [Hp Hm]. apply method_in_supported in Hm.
  unfold resolve. change (routes (router HealthResponse)) with [health_route HealthResponse].
  unfold scan. rewrite matches_health_route, Hp, Hm. simpl.
  unfold handle. simpl route_methods. now rewrite Hm.
Qed.

Lemma resolve_unsupported_method (req : Request) :
  path req = "/health" ->
  ~ supported_method (method req) ->
  resolve (router HealthResponse) req =
  MethodNotAllowed (health_route HealthResponse).
Proof.
  intros Hp Hm. apply method_in_unsupported in Hm.
  unfold resolve. change (routes (router HealthResponse)) with [health_route HealthResponse].
  unfold scan. rewrite matches_health_route, Hp, Hm. simpl.
  unfold handle. simpl route_methods. now rewrite Hm.
Qed.

(** What a call of the handler through its route produces. *)
Lemma run_health_route (w : World Value) :
  run_endpoint (health_route HealthResponse) w =
  (match BaseModel_init HealthResponse [] with
   | Returned obj => json_response 200 obj
   | Raised _ => plain_response 500
   end, w).
Proof. reflexivity. Qed.

Lemma app_health_request (req : Request) (w : World Value) :
  health_request req ->
  app (router HealthResponse) req w =
  (match BaseModel_init HealthResponse [] with
   | Returned obj => json_response 200 obj
   | Raised _ => plain_response 500
   end, w).
Proof.
  intros H. unfold app. rewrite (resolve_health_request H). apply run_health_route.
Qed.

Lemma app_health_request_ok (req : Request) (w : World Value) :
  constructible_with_defaults HealthResponse = true ->
  health_request req ->
  app (router HealthResponse) req w = (ok_response HealthResponse, w).
Proof.
  intros Hc H. rewrite (app_health_request w H).
  now rewrite (BaseModel_init_defaults HealthResponse Hc).
Qed.

(** No resolution lets a request change the process state: the only
    endpoint on the router is [health]. *)
Lemma app_preserves_world (self : APIRouter Value) (req : Request) (w : World Value) :
  routes self = [health_route HealthResponse] ->
  snd (app self req w) = w.
Proof.
  intros Hr. unfold app, resolve. rewrite Hr. unfold scan.
  rewrite matches_health_route.
  destruct (path_regex_match _ _); [destruct (method_in _ _) eqn:E|].
  - unfold handle. simpl route_methods. simpl is_empty. rewrite E. reflexivity.
  - unfold handle. simpl route_methods. simpl is_empty. rewrite E. reflexivity.
  - destruct (_ && _); [|reflexivity]. now destruct (existsb _ _).
Qed.

Lemma serve_all_preserves_world (reqs : list Request) (w : World Value) :
  snd (serve_all (router HealthResponse) reqs w) = w.
Proof.
  unfold serve_all. revert w.
  induction reqs as [| req reqs IH]; intros w; [reflexivity|].
  simpl. unfold bind.
  pose proof (@app_preserves_world (router HealthResponse) req w eq_refl) as Hw.
  destruct (app (router HealthResponse) req w) as [resp w1]. simpl in Hw. subst w1.
  specialize (IH w).
  destruct (mapM (app (router HealthResponse)) reqs w) as [resps w2].
  exact IH.
Qed.

Lemma serve_all_health (reqs : list Request) (w : World Value) :
  constructible_with_defaults HealthResponse = true ->
  Forall health_request reqs ->
  serve_all (router HealthResponse) reqs w =
  (repeat (ok_response HealthResponse) (length reqs), w).
Proof.
  intros Hc Hall. unfold serve_all.
  induction Hall as [| req reqs Hreq _ IH]; [reflexivity|].
  simpl. unfold bind. rewrite (app_health_request_ok w Hc Hreq).
  now rewrite IH.
Qed.

Lemma handler_calls (calls : list unit) (w : World Value) :
  mapM (fun _ : unit => health HealthResponse) calls w =
  (repeat (BaseModel_init HealthResponse []) (length calls), w).
Proof.
  induction calls as [| c calls IH]; [reflexivity|].
  simpl. unfold bind. unfold health at 1. unfold ret at 1. now rewrite IH.
Qed.

(** ** Paths beyond the prefix *)

Lemma rstrip_slash_all_slashes (s : string) :
  all_slashes s = true -> rstrip_slash s = "".
Proof.
  induction s as [| c s IH]; simpl; [reflexivity|].
  intros H. apply andb_true_iff in H as [Hc Hs].
  now rewrite (IH Hs), Hc.
Qed.

Lemma rstrip_slash_not_all_slashes (s : string) :
  all_slashes s = false -> rstrip_slash s <> "".
Proof.
  induction s as [| c s IH]; simpl; [discriminate|].
  intros H. destruct (rstrip_slash s) eqn:E; [|discriminate].
  destruct (Ascii.eqb c slash); [|discriminate].
  simpl in H. destruct (all_slashes s); [discriminate|]. now apply IH.
Qed.

Lemma rstrip_slash_app_all_slashes (s1 s2 : string) :
  all_slashes s2 = true ->
  rstrip_slash (s1 ++ s2) = rstrip_slash s1.
Proof.
  intros H. induction s1 as [| c s1 IH]; simpl.
  - now apply rstrip_slash_all_slashes.
  - now rewrite IH.
Qed.

Lemma rstrip_slash_app_kept (s1 s2 : string) :
  all_slashes s2 = false ->
  rstrip_slash (s1 ++ s2) = (s1 ++ rstrip_slash s2)%string.
Proof.
  intros H. apply rstrip_slash_not_all_slashes in H.
  induction s1 as [| c s1 IH]; simpl; [reflexivity|].
  rewrite IH. destruct (s1 ++ rstrip_slash s2)%string eqn:E; [|reflexivity].
  destruct s1; simpl in E; [contradiction | discriminate].
Qed.

Lemma endswith_slash_app (s1 s2 : string) :
  s2 <> "" -> endswith_slash (s1 ++ s2) = endswith_slash s2.
Proof.
  intros H. induction s1 as [| c s1 IH]; simpl; [reflexivity|].
  destruct (s1 ++ s2)%string eqn:E; [|exact IH].
  destruct s1; simpl in E; [contradiction | discriminate].
Qed.

Lemma endswith_slash_all_slashes (s : string) :
  all_slashes s = true -> endswith_slash (String slash s) = true.
Proof.
  induction s as [| c s IH]; [reflexivity|].
  intros H. simpl in H. apply andb_true_iff in H as [Hc Hs].
  apply Ascii.eqb_eq in Hc. subst c. specialize (IH Hs).
  simpl in *. exact IH.
Qed.

Lemma no_match_beyond_prefix (rest : string) :
  path_regex_match "/health" ("/health/" ++ rest) = false.
Proof. reflexivity. Qed.

Lemma redirect_path_only_slashes (rest : string) :
  all_slashes rest = true ->
  redirect_path ("/health/" ++ rest) = "/health".
Proof.
  intros H. unfold redirect_path.
  change ("/health/" ++ rest)%string with ("/health" ++ String slash rest)%string.
  rewrite endswith_slash_app by discriminate.
  rewrite (endswith_slash_all_slashes _ H).
  rewrite rstrip_slash_app_all_slashes; [reflexivity|].
  simpl. exact H.
Qed.

Lemma redirect_path_stays_beyond (rest : string) :
  all_slashes rest = false ->
  exists rest', redirect_path ("/health/" ++ rest) = ("/health/" ++ rest')%string.
Proof.
  intros H. unfold redirect_path.
  destruct (endswith_slash _).
  - exists (rstrip_slash rest). now apply rstrip_slash_app_kept.
  - exists (rest ++ "/")%string. reflexivity.
Qed.

Lemma resolve_beyond_prefix (b : bool) (req : Request) (rest : string) :
  path req = ("/health/" ++ rest)%string ->
  resolve (with_redirect_slashes b (router HealthResponse)) req =
  if b && all_slashes rest then SlashRedirect "/health" else NotFound.
Proof.
  intros Hp. unfold resolve.
  change (routes (with_redirect_slashes b (router HealthResponse)))
    with [health_route HealthResponse].
  change (redirect_slashes (with_redirect_slashes b (router HealthResponse)))
    with b.
  unfold scan. rewrite matches_health_route, Hp, no_match_beyond_prefix.
  destruct b; [|reflexivity].
  replace (String.eqb ("/health/" ++ rest) "/") with false by reflexivity.
  cbn [andb negb existsb orb]. rewrite matches_health_route.
  cbn [path with_path].
  destruct (all_slashes rest) eqn:E.
  - rewrite (redirect_path_only_slashes _ E).
    replace (path_regex_match "/health" "/health") with true by reflexivity.
    now destruct (method_in _ _).
  - destruct (redirect_path_stays_beyond _ E) as [rest' ->].
    now rewrite no_match_beyond_prefix.
Qed.

Lemma default_instance_fields (cls : ModelClass Value) :
  constructible_with_defaults cls = true ->
  map (fun kv => (fst kv, Some (snd kv))) (default_instance cls) =
  map (fun f => (field_name f, field_default f)) cls.
Proof.
  unfold constructible_with_defaults.
  induction cls as [| f fs IH]; simpl; intros H; [reflexivity|].
  apply andb_true_iff in H as [Hf Hfs]. unfold has_default in Hf.
  destruct (field_default f); [|discriminate].
  simpl. now rewrite (IH Hfs).
Qed.

(** ** The claims *)

(** C1: for every GET or HEAD request to the exact path /health the router
    calls [health]; [health] returns the object that [HealthResponse]
    constructs when called with no arguments, which holds every declared
    field at its default value; and that object, unwrapped, is the content
    of the response. *)
Theorem health_returns_default_payload (req : Request) (w : World Value) :
  constructible_with_defaults HealthResponse = true ->
  health_request req ->
  resolve (router HealthResponse) req = CallEndpoint (health_route HealthResponse) /\
  endpoint (health_route HealthResponse) = health HealthResponse /\
  fst (health HealthResponse w) = BaseModel_init HealthResponse [] /\
  fst (health HealthResponse w) = Returned (default_instance HealthResponse) /\
  map (fun kv => (fst kv, Some (snd kv))) (default_instance HealthResponse) =
    map (fun f => (field_name f, field_default f)) HealthResponse /\
  content (fst (app (router HealthResponse) req w)) =
    Some (default_instance HealthResponse).
Proof.
  intros Hc Hreq. repeat split.
  - now apply resolve_health_request.
  - simpl. now apply BaseModel_init_defaults.
  - now apply default_instance_fields.
  - now rewrite (app_health_request_ok w Hc Hreq).
Qed.

(** C2: for GET and for HEAD sent to /health the response status code is
    200; the route declares no status code of its own, so the default
    applies. *)
Theorem health_status_200 (req : Request) (w : World Value) :
  constructible_with_defaults HealthResponse = true ->
  health_request req ->
  status_code (fst (app (router HealthResponse) req w)) = 200 /\
  Forall (fun r => route_status_code r = None) (routes (router HealthResponse)).
Proof.
  intros Hc Hreq. split.
  - now rewrite (app_health_request_ok w Hc Hreq).
  - repeat constructor.
Qed.

(** C3: the router carries exactly one route; its path is the prefix
    ["/health"] followed by the empty sub-path, that is ["/health"]; its
    methods are exactly GET and HEAD; its endpoint is [health]. *)
Theorem health_route_registered :
  routes (router HealthResponse) = [health_route HealthResponse] /\
  prefix (router HealthResponse) = "/health" /\
  route_path (health_route HealthResponse) =
    (prefix (router HealthResponse) ++ "")%string /\
  route_path (health_route HealthResponse) = "/health" /\
  route_methods (health_route HealthResponse) = ["GET"; "HEAD"] /\
  endpoint (health_route HealthResponse) = health HealthResponse.
Proof. repeat split. Qed.

(** C4: the handler has no failure path of its own: its outcome is the
    outcome of the construction [HealthResponse()]; and with every field
    of the class carrying a default that construction returns, so the
    handler returns an object and raises nothing. *)
Theorem health_never_raises (w : World Value) :
  constructible_with_defaults HealthResponse = true ->
  fst (health HealthResponse w) = BaseModel_init HealthResponse [] /\
  (exists obj, fst (health HealthResponse w) = Returned obj) /\
  (forall e, fst (health HealthResponse w) <> Raised e).
Proof.
  intros Hc. simpl. rewrite (BaseModel_init_defaults HealthResponse Hc).
  repeat split; [eexists; reflexivity | discriminate].
Qed.

(** C5: in every sequence of calls each call gives the same payload as
    every other call, whatever the number of calls and their order: the
    handler called any number of times in a row returns the default object
    each time, and requests served in a row, in any order and from any
    starting state, get one and the same response. *)
Theorem repeated_calls_identical
    (calls : list unit) (reqs reqs' : list Request) (w w' : World Value) :
  constructible_with_defaults HealthResponse = true ->
  Forall health_request reqs ->
  Permutation reqs reqs' ->
  fst (mapM (fun _ : unit => health HealthResponse) calls w) =
    repeat (Returned (default_instance HealthResponse)) (length calls) /\
  fst (serve_all (router HealthResponse) reqs w) =
    repeat (ok_response HealthResponse) (length reqs) /\
  (forall r1 r2,
      In r1 (fst (serve_all (router HealthResponse) reqs w)) ->
      In r2 (fst (serve_all (router HealthResponse) reqs w)) ->
      content r1 = content r2) /\
  fst (serve_all (router HealthResponse) reqs' w') =
    fst (serve_all (router HealthResponse) reqs w).
Proof.
  intros Hc Hall Hperm.
  assert (Hall' : Forall health_request reqs').
  { apply Forall_forall. intros r Hr. rewrite Forall_forall in Hall.
    apply Hall. now apply (Permutation_in r (Permutation_sym Hperm)). }
  rewrite handler_calls, (BaseModel_init_defaults HealthResponse Hc).
  rewrite (serve_all_health w Hc Hall), (serve_all_health w' Hc Hall').
  simpl. repeat split.
  - intros r1 r2 H1 H2.
    apply repeat_spec in H1. apply repeat_spec in H2. now subst.
  - now rewrite (Permutation_length Hperm).
Qed.

(** C6: the response does not depend on the request or on the state the
    call starts from: two requests to /health with supported methods,
    with whatever headers, query strings and bodies, served from whatever
    two states, get equal responses, and the handler returns equal
    outcomes. *)
Theorem response_independent_of_request
    (req1 req2 : Request) (w1 w2 : World Value) :
  health_request req1 ->
  health_request req2 ->
  fst (app (router HealthResponse) req1 w1) =
    fst (app (router HealthResponse) req2 w2) /\
  fst (health HealthResponse w1) = fst (health HealthResponse w2).
Proof.
  intros H1 H2.
  rewrite (app_health_request w1 H1), (app_health_request w2 H2).
  split; reflexivity.
Qed.

(** C7: a call of the handler leaves the process state as it found it:
    the log, the module-level variables and the I/O trace are the same
    after the call, for the handler called directly, for any request
    served by the router, and for any sequence of requests. *)
Theorem health_leaves_world_unchanged
    (req : Request) (reqs : list Request) (w : World Value) :
  snd (health HealthResponse w) = w /\
  log (snd (health HealthResponse w)) = log w /\
  globals (snd (health HealthResponse w)) = globals w /\
  io (snd (health HealthResponse w)) = io w /\
  snd (app (router HealthResponse) req w) = w /\
  snd (serve_all (router HealthResponse) reqs w) = w.
Proof.
  repeat split.
  - now apply (@app_preserves_world (router HealthResponse)).
  - apply serve_all_preserves_world.
Qed.

(** C8 (amended): a request to /health/ or to any other path that goes on
    after the prefix with a slash matches no route, whatever its method:
    the route is scoped to the empty sub-path.  The answer is 404 when
    slash redirection is off, and when the path is not /health followed
    by slashes only.  With slash redirection on, the setting [router] is
    built with, a path made of /health and trailing slashes is answered
    by a 307 redirect to /health. *)
Theorem beyond_prefix_not_found_or_redirect
    (b : bool) (req : Request) (rest : string) (w : World Value) :
  path req = ("/health/" ++ rest)%string ->
  Forall (fun r => matches r req = NONE) (routes (router HealthResponse)) /\
  redirect_slashes (router HealthResponse) = true /\
  with_redirect_slashes true (router HealthResponse) = router HealthResponse /\
  fst (app (with_redirect_slashes b (router HealthResponse)) req w) =
    (if b && all_slashes rest
     then redirect_response "/health"
     else plain_response 404) /\
  snd (app (with_redirect_slashes b (router HealthResponse)) req w) = w.
Proof.
  intros Hp. repeat split.
  - constructor; [|constructor].
    now rewrite matches_health_route, Hp, no_match_beyond_prefix.
  - unfold app. rewrite (resolve_beyond_prefix b req Hp).
    now destruct (b && all_slashes rest).
  - now apply app_preserves_world.
Qed.

Lemma step_health (q r : Pool Value) :
  constructible_with_defaults HealthResponse = true ->
  step (router HealthResponse) q r ->
  Forall (fun ir => health_request (snd ir)) (pending q) ->
  shared r = shared q /\
  Forall (fun ir => health_request (snd ir)) (pending r) /\
  exists i,
    completed r = (i, ok_response HealthResponse) :: completed q /\
    Permutation (i :: map fst (pending r)) (map fst (pending q)).
Proof.
  intros Hc Hstep Hall. destruct Hstep as [w before i req after done].
  simpl in *.
  apply Forall_app in Hall as [Hb Ha].
  apply Forall_cons_iff in Ha as [Hreq Ha]. simpl in Hreq.
  rewrite (app_health_request_ok w Hc Hreq). simpl.
  split; [reflexivity|]. split; [now apply Forall_app|].
  exists i. split; [reflexivity|].
  rewrite !map_app. simpl. apply Permutation_middle.
Qed.

(** C9: requests in flight may be run in any order the scheduler picks,
    with no lock to wait for.  From a pool of invocations that are all
    health checks, in every state any schedule reaches: the shared process
    state is the initial one, every invocation run so far was answered 200
    with the default payload, no invocation was lost or run twice, and as
    long as invocations are pending one of them can run. *)
Theorem concurrent_invocations_safe
    (w0 : World Value) (invs : list (nat * Request)) (p : Pool Value) :
  constructible_with_defaults HealthResponse = true ->
  Forall (fun ir => health_request (snd ir)) invs ->
  steps (router HealthResponse)
    {| shared := w0; pending := invs; completed := [] |} p ->
  shared p = w0 /\
  Forall (fun ir => health_request (snd ir)) (pending p) /\
  Forall (fun ir => snd ir = ok_response HealthResponse /\
                    status_code (snd ir) = 200 /\
                    content (snd ir) = Some (default_instance HealthResponse))
         (completed p) /\
  Permutation (map fst (pending p) ++ map fst (completed p)) (map fst invs) /\
  (pending p = [] \/ exists p', step (router HealthResponse) p p').
Proof.
  intros Hc Hall Hsteps.
  assert (Hinv : shared p = w0 /\
    Forall (fun ir => health_request (snd ir)) (pending p) /\
    Forall (fun ir => snd ir = ok_response HealthResponse /\
                      status_code (snd ir) = 200 /\
                      content (snd ir) = Some (default_instance HealthResponse))
           (completed p) /\
    Permutation (map fst (pending p) ++ map fst (completed p)) (map fst invs)).
  { remember {| shared := w0; pending := invs; completed := [] |} as p0 eqn:E.
    induction Hsteps as [p | p q r _ IH Hstep].
    - subst p. simpl. repeat split; auto. now rewrite app_nil_r.
    - destruct (IH E) as (Hw & Hpend & Hdone & Hperm).
      destruct (step_health Hc Hstep Hpend) as (Hw' & Hpend' & i & Hcomp & Hp').
      repeat split.
      + congruence.
      + exact Hpend'.
      + rewrite Hcomp. constructor; [now repeat split | exact Hdone].
      + rewrite Hcomp. simpl.
        eapply Permutation_trans; [apply Permutation_sym, Permutation_middle|].
        eapply Permutation_trans; [|exact Hperm].
        change (i :: map fst (pending r) ++ map fst (completed q))
          with ((i :: map fst (pending r)) ++ map fst (completed q)).
        now apply Permutation_app_tail. }
  destruct Hinv as (Hw & Hpend & Hdone & Hperm).
  repeat split; auto.
  destruct p as [w pend done]. simpl. destruct pend as [| [i req] rest].
  - now left.
  - right. eexists. apply (step_run (router HealthResponse) w [] i req rest done).
Qed.

(** C10: a request to /health with a method other than GET and HEAD
    reaches the route only as a partial match: the answer is 405, the
    endpoint is not called (whatever function were registered there, the
    response and the process state would be the same), and no health
    payload is returned. *)
Theorem other_methods_rejected (req : Request) (w : World Value) :
  path req = "/health" ->
  ~ supported_method (method req) ->
  matches (health_route HealthResponse) req = PARTIAL /\
  resolve (router HealthResponse) req =
    MethodNotAllowed (health_route HealthResponse) /\
  app (router HealthResponse) req w = (plain_response 405, w) /\
  content (fst (app (router HealthResponse) req w)) = None /\
  (forall func : M Value (Outcome (Instance Value)),
      app (api_route (APIRouter_init "/health" ["health"])
             "" ["GET"; "HEAD"] HealthResponse "health" func) req w =
      (plain_response 405, w)).
Proof.
  intros Hp Hm.
  pose proof (resolve_unsupported_method req Hp Hm) as Hres.
  pose proof (method_in_unsupported Hm) as Hin.
  repeat split.
  - rewrite matches_health_route, Hp, Hin. reflexivity.
  - exact Hres.
  - unfold app. now rewrite Hres.
  - unfold app. now rewrite Hres.
  - intros func. unfold app, resolve, api_route, APIRouter_init, scan, matches, handle.
    cbn -[method_in path_regex_match]. rewrite Hp, Hin.
    replace (path_regex_match "/health" "/health") with true by reflexivity.
    cbn -[method_in]. now rewrite Hin.
Qed.

(** ** The whole dispatch of the router *)

Lemma path_regex_match_health (p : string) :
  path_regex_match "/health" p = true <->
  p = "/health" \/ p = ("/health" ++ newline)%string.
Proof.
  unfold path_regex_match. rewrite orb_true_iff, !String.eqb_eq. reflexivity.
Qed.

Lemma matched_path_keeps_its_end (p : string) :
  path_regex_match "/health" p = true ->
  rstrip_slash p = p /\ endswith_slash p = false.
Proof.
  intros H. apply path_regex_match_health in H as [-> | ->]; split; reflexivity.
Qed.

Lemma no_match_with_added_slash (p : string) :
  path_regex_match "/health" (p ++ "/") = false.
Proof.
  destruct (path_regex_match "/health" (p ++ "/")) eqn:E; [|reflexivity].
  apply matched_path_keeps_its_end in E as [_ E].
  rewrite endswith_slash_app in E by discriminate. discriminate E.
Qed.

(** The resolution of any request, in closed form. *)
Lemma resolve_router (b : bool) (req : Request) :
  resolve (with_redirect_slashes b (router HealthResponse)) req =
  if path_regex_match "/health" (path req) then
    if method_in (method req) ["GET"; "HEAD"]
    then CallEndpoint (health_route HealthResponse)
    else MethodNotAllowed (health_route HealthResponse)
  else if b && negb (String.eqb (path req) "/")
          && path_regex_match "/health" (redirect_path (path req))
  then SlashRedirect (redirect_path (path req))
  else NotFound.
Proof.
  unfold resolve.
  change (routes (with_redirect_slashes b (router HealthResponse)))
    with [health_route HealthResponse].
  change (redirect_slashes (with_redirect_slashes b (router HealthResponse)))
    with b.
  unfold scan. rewrite matches_health_route.
  destruct (path_regex_match "/health" (path req)).
  - unfold handle.
    destruct (method_in (method req) ["GET"; "HEAD"]) eqn:E;
      cbn -[method_in]; now rewrite E.
  - destruct (b && negb (String.eqb (path req) "/")); [|reflexivity].
    cbn [andb existsb orb]. rewrite matches_health_route.
    cbn [path method with_path].
    destruct (path_regex_match "/health" (redirect_path (path req)));
      [|reflexivity].
    now destruct (method_in (method req) ["GET"; "HEAD"]).
Qed.

(** X1: the router calls an endpoint exactly for the requests whose method
    is GET or HEAD and whose path is /health (or /health followed by one
    newline, which the route's pattern also accepts), and the endpoint
    called is then the health route's; this holds with slash redirection
    on or off. *)
Theorem handler_called_iff (b : bool) (req : Request) (r : APIRoute Value) :
  resolve (with_redirect_slashes b (router HealthResponse)) req = CallEndpoint r <->
  r = health_route HealthResponse /\
  (path req = "/health" \/ path req = ("/health" ++ newline)%string) /\
  supported_method (method req).
Proof.
  rewrite resolve_router, <- path_regex_match_health, <- method_in_supported.
  destruct (path_regex_match "/health" (path req)).
  - destruct (method_in (method req) ["GET"; "HEAD"]); split.
    + intros H. injection H as <-. now repeat split.
    + intros (-> & _ & _). reflexivity.
    + discriminate.
    + intros (_ & _ & H). discriminate H.
  - split.
    + destruct (_ && _); discriminate.
    + intros (_ & H & _). discriminate H.
Qed.

(** X2: a response of the router carries content only when it answers a
    GET or HEAD request on the health path: the content is then the
    object [HealthResponse()] returned, the status is 200 and there is no
    redirect target.  No other request ever gets the payload. *)
Theorem payload_only_for_health_checks
    (b : bool) (req : Request) (w : World Value) (obj : Instance Value) :
  content (fst (app (with_redirect_slashes b (router HealthResponse)) req w)) =
    Some obj ->
  (path req = "/health" \/ path req = ("/health" ++ newline)%string) /\
  supported_method (method req) /\
  BaseModel_init HealthResponse [] = Returned obj /\
  fst (app (with_redirect_slashes b (router HealthResponse)) req w) =
    json_response 200 obj.
Proof.
  unfold app. rewrite resolve_router.
  rewrite <- path_regex_match_health, <- method_in_supported.
  destruct (path_regex_match "/health" (path req)).
  - destruct (method_in (method req) ["GET"; "HEAD"]).
    + simpl respond. rewrite run_health_route. simpl fst.
      destruct (BaseModel_init HealthResponse []) as [o | e]; simpl.
      * intros H. injection H as ->. now repeat split.
      * discriminate.
    + discriminate.
  - destruct (_ && _); discriminate.
Qed.

(** X3: a request whose path, with its trailing slashes taken off, is not
    the health path is answered 404 with no content, whatever its method
    and whether slash redirection is on or off, and the process state is
    untouched.  This covers the root path, paths outside the prefix and
    paths that merely begin with the prefix's letters. *)
Theorem not_found_unless_health_path
    (b : bool) (req : Request) (w : World Value) :
  path_regex_match "/health" (rstrip_slash (path req)) = false ->
  app (with_redirect_slashes b (router HealthResponse)) req w =
    (plain_response 404, w).
Proof.
  intros H. unfold app. rewrite resolve_router.
  destruct (path_regex_match "/health" (path req)) eqn:E.
  - apply matched_path_keeps_its_end in E as E'. destruct E' as [E' _].
    rewrite E' in H. congruence.
  - destruct (b && negb (String.eqb (path req) "/")); [|reflexivity].
    unfold redirect_path.
    destruct (endswith_slash (path req)).
    + now rewrite H.
    + now rewrite no_match_with_added_slash.
Qed.


(** X5: with a class constructible from its defaults the router never
    answers with a server error: every response to every request has
    status 200, 307, 404 or 405, and 307 only with slash redirection on
    and a path that ends in a slash. *)
Theorem status_codes_of_router
    (b : bool) (req : Request) (w : World Value) :
  constructible_with_defaults HealthResponse = true ->
  In (status_code
        (fst (app (with_redirect_slashes b (router HealthResponse)) req w)))
     [200; 307; 404; 405] /\
  (status_code
     (fst (app (with_redirect_slashes b (router HealthResponse)) req w)) = 307 ->
   b = true /\ endswith_slash (path req) = true).
Proof.
  intros Hc. unfold app. rewrite resolve_router.
  destruct (path_regex_match "/health" (path req)).
  - destruct (method_in (method req) ["GET"; "HEAD"]).
    + simpl respond. rewrite run_health_route.
      rewrite (BaseModel_init_defaults HealthResponse Hc). simpl.
      split; [auto | discriminate].
    + simpl. split; [auto 6 | discriminate].
  - destruct b; simpl andb.
    + destruct (negb (String.eqb (path req) "/")); simpl andb.
      * unfold redirect_path.
        destruct (endswith_slash (path req)).
        -- destruct (path_regex_match _ _); simpl;
             (split; [auto 6 | intros; try discriminate; auto]).
        -- rewrite no_match_with_added_slash. simpl.
           split; [auto 6 | discriminate].
      * simpl. split; [auto 6 | discriminate].
    + simpl. split; [auto 6 | discriminate].
Qed.

End Properties.

(** * The properties on sample data *)

(** Without the default the construction, and with it the handler, raises:
    the assumption on the class cannot be dropped. *)
Example health_raises_on_required_field :
  fst (health status_required idle) = Raised (ValidationError ["status"]) /\
  fst (app (router status_required) probe idle) = plain_response 500.
Proof. split; reflexivity. Qed.

(** The pattern of the route also accepts the path followed by one
    newline, which is not a path under the prefix. *)
Example newline_after_path_matches :
  matches (health_route status_ok) (request "GET" ("/health" ++ newline)) = FULL.
Proof. reflexivity. Qed.

Lemma probe_is_health_request : health_request probe.
Proof. split; [reflexivity | right; reflexivity]. Qed.

Lemma get_is_health_request : health_request (request "GET" "/health").
Proof. split; [reflexivity | left; reflexivity]. Qed.

Lemma post_is_unsupported : ~ supported_method "POST".
Proof. intros [H | H]; discriminate H. Qed.

Lemma two_probes_schedule :
  steps (router status_ok)
    {| shared := busy; pending := two_probes; completed := [] |}
    both_answered.
Proof.
  eapply steps_snoc.
  - eapply steps_snoc.
    + apply steps_refl.
    + exact (step_run (router status_ok) busy
               [(0, request "GET" "/health")] 1 probe [] []).
  - exact (step_run (router status_ok) busy
             [] 0 (request "GET" "/health") [] [(1, ok_response status_ok)]).
Qed.

Lemma health_returns_default_payload_witness :
  constructible_with_defaults status_ok = true /\
  health_request probe /\
  fst (health status_ok busy) = Returned [("status", "ok")] /\
  content (fst (app (router status_ok) probe busy)) = Some [("status", "ok")].
Proof.
  assert (Hc : constructible_with_defaults status_ok = true) by reflexivity.
  destruct (@health_returns_default_payload string status_ok probe busy
              Hc probe_is_health_request) as (_ & _ & _ & Hret & _ & Hcontent).
  exact (conj Hc (conj probe_is_health_request (conj Hret Hcontent))).
Defined.

Lemma health_status_200_witness :
  constructible_with_defaults status_ok = true /\
  health_request (request "GET" "/health") /\
  status_code (fst (app (router status_ok) (request "GET" "/health") idle)) = 200.
Proof.
  assert (Hc : constructible_with_defaults status_ok = true) by reflexivity.
  destruct (@health_status_200 string status_ok (request "GET" "/health") idle
              Hc get_is_health_request) as [Hstatus _].
  exact (conj Hc (conj get_is_health_request Hstatus)).
Defined.

Lemma health_never_raises_witness :
  constructible_with_defaults status_ok = true /\
  exists obj, fst (health status_ok busy) = Returned obj.
Proof.
  assert (Hc : constructible_with_defaults status_ok = true) by reflexivity.
  destruct (@health_never_raises string status_ok busy Hc) as (_ & Hret & _).
  split; [exact Hc | exact Hret].
Defined.

Lemma repeated_calls_identical_witness :
  constructible_with_defaults status_ok = true /\
  Forall health_request [request "GET" "/health"; probe; probe] /\
  Permutation [request "GET" "/health"; probe; probe]
              [probe; request "GET" "/health"; probe] /\
  fst (serve_all (router status_ok)
         [probe; request "GET" "/health"; probe] busy) =
  fst (serve_all (router status_ok)
         [request "GET" "/health"; probe; probe] idle).
Proof.
  assert (Hc : constructible_with_defaults status_ok = true) by reflexivity.
  assert (Hall : Forall health_request [request "GET" "/health"; probe; probe]).
  { repeat constructor; solve [left; reflexivity | right; reflexivity]. }
  assert (Hperm : Permutation [request "GET" "/health"; probe; probe]
                              [probe; request "GET" "/health"; probe])
    by apply perm_swap.
  destruct (@repeated_calls_identical string status_ok [tt; tt]
              _ _ idle busy Hc Hall Hperm) as (_ & _ & _ & Hsame).
  exact (conj Hc (conj Hall (conj Hperm Hsame))).
Defined.

Lemma response_independent_of_request_witness :
  health_request probe /\
  health_request (request "GET" "/health") /\
  fst (app (router status_ok) probe busy) =
  fst (app (router status_ok) (request "GET" "/health") idle).
Proof.
  destruct (@response_independent_of_request string status_ok
              probe (request "GET" "/health") busy idle
              probe_is_health_request get_is_health_request) as [Hsame _].
  exact (conj probe_is_health_request (conj get_is_health_request Hsame)).
Defined.

(** C8 as stated fails: the router as the module builds it answers
    GET /health/ with a redirect to /health, not with 404, although no
    route matches the path. *)
Lemma trailing_slash_is_redirected :
  path (request "GET" "/health/") = "/health/" /\
  Forall (fun r => matches r (request "GET" "/health/") = NONE)
         (routes (router status_ok)) /\
  fst (app (router status_ok) (request "GET" "/health/") idle) =
    redirect_response "/health" /\
  status_code (fst (app (router status_ok) (request "GET" "/health/") idle))
    <> 404.
Proof.
  repeat split.
  - repeat constructor.
  - discriminate.
Qed.

Lemma beyond_prefix_not_found_or_redirect_witness :
  path (request "GET" "/health/live") = ("/health/" ++ "live")%string /\
  fst (app (with_redirect_slashes true (router status_ok))
         (request "GET" "/health/live") idle) = plain_response 404.
Proof.
  destruct (@beyond_prefix_not_found_or_redirect string status_ok true
              (request "GET" "/health/live") "live" idle eq_refl)
    as (_ & _ & _ & Hresp & _).
  exact (conj eq_refl Hresp).
Defined.

Lemma concurrent_invocations_safe_witness :
  constructible_with_defaults status_ok = true /\
  Forall (fun ir => health_request (snd ir)) two_probes /\
  shared both_answered = busy /\
  Forall (fun ir => snd ir = ok_response status_ok /\
                    status_code (snd ir) = 200 /\
                    content (snd ir) = Some (default_instance status_ok))
         (completed both_answered).
Proof.
  assert (Hc : constructible_with_defaults status_ok = true) by reflexivity.
  assert (Hall : Forall (fun ir => health_request (snd ir)) two_probes).
  { repeat constructor; solve [left; reflexivity | right; reflexivity]. }
  destruct (@concurrent_invocations_safe string status_ok busy two_probes
              both_answered Hc Hall two_probes_schedule)
    as (Hw & _ & Hdone & _).
  exact (conj Hc (conj Hall (conj Hw Hdone))).
Defined.

Lemma other_methods_rejected_witness :
  path (request "POST" "/health") = "/health" /\
  ~ supported_method (method (request "POST" "/health")) /\
  app (router status_ok) (request "POST" "/health") busy =
    (plain_response 405, busy).
Proof.
  destruct (@other_methods_rejected string status_ok (request "POST" "/health")
              busy eq_refl post_is_unsupported) as (_ & _ & Hresp & _).
  exact (conj eq_refl (conj post_is_unsupported Hresp)).
Defined.

Lemma payload_only_for_health_checks_witness :
  content (fst (app (with_redirect_slashes false (router status_ok)) probe busy)) =
    Some [("status", "ok")] /\
  supported_method (method probe) /\
  fst (app (with_redirect_slashes false (router status_ok)) probe busy) =
    json_response 200 [("status", "ok")].
Proof.
  destruct (@payload_only_for_health_checks string status_ok false probe busy
              [("status", "ok")] eq_refl) as (_ & Hm & _ & Hresp).
  exact (conj eq_refl (conj Hm Hresp)).
Defined.

Lemma not_found_unless_health_path_witness :
  path_regex_match "/health" (rstrip_slash (path (request "DELETE" "/healthz/")))
    = false /\
  app (with_redirect_slashes true (router status_ok))
      (request "DELETE" "/healthz/") busy = (plain_response 404, busy).
Proof.
  exact (conj eq_refl
           (@not_found_unless_health_path string status_ok true
              (request "DELETE" "/healthz/") busy eq_refl)).
Defined.


Lemma status_codes_of_router_witness :
  constructible_with_defaults status_ok = true /\
  In (status_code
        (fst (app (with_redirect_slashes true (router status_ok))
                (request "POST" "/health") idle)))
     [200; 307; 404; 405].
Proof.
  assert (Hc : constructible_with_defaults status_ok = true) by reflexivity.
  destruct (@status_codes_of_router string status_ok true
              (request "POST" "/health") idle Hc) as [Hin _].
  exact (conj Hc Hin).
Defined.
